(** * SidePanel: the responsive tab grid of the viewer's side panel

    A shallow embedding of the layout helpers of the SidePanel component
    ([getTabWidth], [getGridWidth], [getNumGridColumns], [getGridStyle],
    [getTabClassNames], [getTabStyle] and the tab grid built by
    [getTabGridComponent]) together with the properties of the layout that
    the specification states.

    Numbers.  Tab counts, tab indices and pixel widths are integers, and the
    three grid helpers only add, subtract, multiply, compare and take the
    floor of a quotient by a positive integer: they are embedded over [Z],
    with [Math.floor (a / b)] as [a / b] ([Z.div] rounds towards minus
    infinity for a positive divisor).  [getGridStyle] halves a number outside
    of [Math.floor], so its arithmetic is embedded over the rationals [Q],
    which represent the doubles involved exactly (integers and halves of
    integers, far below 2^53). *)

From Stdlib Require Import ZArith QArith Qround Qminmax Lia Lqa.
From stdpp Require Import base list strings gmap.

Open Scope Z_scope.

(** ** The fragment of JavaScript arithmetic the component uses *)

Module JS.

(** [Math.floor] on a number. *)
Definition Math_floor (x : Q) : Q := inject_Z (Qfloor x).

(** [Math.max] of two numbers. *)
Definition Math_max (x y : Q) : Q := Qmax x y.

(** [a % b] on integers: the remainder takes the sign of the dividend, and
    a zero divisor gives [NaN], written [None]. *)
Definition rem (a b : Z) : option Z :=
  if b =? 0 then None else Some (Z.rem a b).

(** [x === n] for the result [x] of [%] and an integer literal [n]:
    [NaN] is equal to nothing. *)
Definition strict_eq (x : option Z) (n : Z) : bool :=
  match x with
  | Some v => v =? n
  | None => false
  end.

(** [x !== n]. *)
Definition strict_ne (x : option Z) (n : Z) : bool := negb (strict_eq x n).

End JS.

(** ** The component *)

Module SidePanel.

Definition borderSize : Z := 4.
Definition collapsedWidth : Z := 25.
Definition closeIconWidth : Z := 30.
Definition gridHorizontalPadding : Z := 10.
Definition tabSpacerWidth : Z := 2.

Definition getTabWidth (numTabs : Z) : Z :=
  if numTabs <? 3 then 68 else 40.

Definition getGridWidth (numTabs gridAvailableWidth : Z) : Z :=
  let spacersWidth := (numTabs - 1) * tabSpacerWidth in
  let tabsWidth := getTabWidth numTabs * numTabs in
  if gridAvailableWidth >? tabsWidth + spacersWidth
  then tabsWidth + spacersWidth
  else gridAvailableWidth.

Definition getNumGridColumns (numTabs gridWidth : Z) : Z :=
  if numTabs =? 1 then 1
  else
    (* the number of tabs assuming each tab was accompanied by a spacer *)
    let tabWidth := getTabWidth numTabs in
    let numTabsWithOneSpacerEach := gridWidth / (tabWidth + tabSpacerWidth) in
    (* there is always one less spacer than tabs: does an extra tab fit? *)
    if (numTabsWithOneSpacerEach + 1) * tabWidth
       + numTabsWithOneSpacerEach * tabSpacerWidth <=? gridWidth
    then numTabsWithOneSpacerEach + 1
    else numTabsWithOneSpacerEach.

(** *** Style objects

    A style object is a finite map from property names to values.  The
    template string [`${n}px`] prints the number [n], so it is recorded as
    the number in lowest terms: two such values are equal exactly when the
    strings are. *)

Inductive cssValue : Type :=
| CssText (s : string)
| CssPx (n : Q).

Definition px (n : Q) : cssValue := CssPx (Qred n).

Abbreviation CSSProperties := (gmap string cssValue).

(** The local [relativePosition] of [getGridStyle]. *)
Definition relativePosition (gridWidth expandedWidth : Q) : Q :=
  JS.Math_max 0
    (JS.Math_floor (expandedWidth - gridWidth) / 2 - inject_Z closeIconWidth)%Q.

(** [numTabs] is accepted and not used. *)
Definition getGridStyle (side : string) (numTabs : Z)
    (gridWidth expandedWidth : Q) : CSSProperties :=
  let relativePosition := relativePosition gridWidth expandedWidth in
  <["width" := px gridWidth]>
    (<[(if String.eqb side "left" then "right" else "left")
       := px relativePosition]>
       (<["position" := CssText "relative"]> ∅)).

(** *** Class names

    [classnames base flags] is the class list of the string that
    [classnames(base, {c1: b1, ...})] returns: the classes of [base]
    followed by the keys whose value is true. *)

Definition classnames (base : list string) (flags : list (string * bool))
    : list string :=
  base ++ flat_map (fun f : string * bool => if snd f then [fst f] else []) flags.

Definition getTabClassNames (numColumns numTabs tabIndex : Z)
    (isActiveTab isTabDisabled : bool) : list string :=
  classnames
    ["h-[28px]"; "mb-[2px]"; "cursor-pointer"; "text-black"; "bg-white"]
    [("hover:text-primary-active", negb isActiveTab && negb isTabDisabled);
     ("rounded-l", JS.strict_eq (JS.rem tabIndex numColumns) 0);
     ("rounded-r", JS.strict_eq (JS.rem (tabIndex + 1) numColumns) 0
                   || (tabIndex =? numTabs - 1))].

Definition getTabStyle (numTabs : Z) : CSSProperties :=
  {["width" := px (inject_Z (getTabWidth numTabs))]}.

Definition getTabIconClassNames (numTabs : Z) (isActiveTab : bool)
    : list string :=
  classnames
    ["h-full"; "w-full"; "flex"; "items-center"; "justify-center"]
    [("bg-customblue-40", isActiveTab); ("rounded", isActiveTab)].

(** *** The tab grid *)

Record Tab : Type := {
  name : string;
  label : string;
  iconName : string;
  disabled : bool
}.

(** What a fragment of the grid holds: the two-pixel spacer, and the
    button of a tab with its class list, its style, its [data-cy]
    attribute, the tab index its click activates (none when the tab is
    disabled) and the class list of its icon holder. *)
Inductive cell : Type :=
| SpacerCell
| TabCell (className : list string) (style : CSSProperties)
    (dataCy : string) (onClick : option Z) (iconClassName : list string).

Record TabGrid : Type := {
  justify : string;
  gridStyle : CSSProperties;
  fragments : list (list cell)
}.

(** The fragment that the callback of [tabs.map] returns. *)
Definition tabFragment (numCols numTabs activeTabIndex : Z)
    (index : nat) (tab : Tab) : list cell :=
  let tabIndex := Z.of_nat index in
  (if JS.strict_ne (JS.rem tabIndex numCols) 0 then [SpacerCell] else [])
  ++ [TabCell
        (getTabClassNames numCols numTabs tabIndex
           (tabIndex =? activeTabIndex) (disabled tab))
        (getTabStyle numTabs)
        (name tab +:+ "-btn")
        (if disabled tab then None else Some tabIndex)
        (getTabIconClassNames numTabs (tabIndex =? activeTabIndex))].

(** [getTabGridComponent], a closure of [SidePanel], with the variables it
    captures as arguments. *)
Definition getTabGridComponent (side : string) (tabs : list Tab)
    (gridWidth expandedWidth activeTabIndex : Z) : TabGrid :=
  let numTabs := Z.of_nat (length tabs) in
  let numCols := getNumGridColumns numTabs gridWidth in
  {| justify := if String.eqb side "right" then "justify-start" else "justify-end";
     gridStyle :=
       getGridStyle side numTabs (inject_Z gridWidth) (inject_Z expandedWidth);
     fragments := imap (tabFragment numCols numTabs activeTabIndex) tabs |}.

(** The grid width that [SidePanel] computes from its props. *)
Definition panelGridWidth (tabs : list Tab) (expandedWidth : Z) : Z :=
  let gridAvailableWidth :=
    expandedWidth - closeIconWidth - gridHorizontalPadding in
  getGridWidth (Z.of_nat (length tabs)) gridAvailableWidth.

(** *** Patient details *)

(** [formatWithEllipsis]: [substring(0, maxLength)] keeps the first
    [maxLength] characters, none when [maxLength] is negative. *)
Definition formatWithEllipsis (str : string) (maxLength : Z) : string :=
  if Z.of_nat (String.length str) >? maxLength
  then String.substring 0 (Z.to_nat maxLength) str +:+ "..."
  else str.

(** *** The state of the panel

    [SidePanel] holds two state cells, [panelOpen] and [activeTabIndex],
    and calls the [onOpen] prop; the calls are counted in [onOpenCalls].
    [setPanelOpen] is given either a value or, from the click handlers, the
    updater [prev => !prev], which React applies to the current value. *)

Record PanelState : Type := {
  panelOpen : bool;
  activeTabIndex : Z;
  onOpenCalls : nat
}.

Inductive setStateAction : Type :=
| SetTo (value : bool)
| Update (updater : bool -> bool).

(** The truth value of the argument in [if (panelOpen)]: a function is
    truthy. *)
Definition truthy (action : setStateAction) : bool :=
  match action with
  | SetTo value => value
  | Update _ => true
  end.

Definition setPanelOpen (action : setStateAction) (prev : bool) : bool :=
  match action with
  | SetTo value => value
  | Update updater => updater prev
  end.

Definition updatePanelOpen (action : setStateAction) (st : PanelState)
    : PanelState :=
  {| panelOpen := setPanelOpen action (panelOpen st);
     activeTabIndex := activeTabIndex st;
     onOpenCalls :=
       if truthy action then S (onOpenCalls st) else onOpenCalls st |}.

(** [updateActiveTabIndex]; [None] is [null]. *)
Definition updateActiveTabIndex (index : option Z) (st : PanelState)
    : PanelState :=
  match index with
  | None => updatePanelOpen (SetTo false) st
  | Some i =>
      updatePanelOpen (SetTo true)
        {| panelOpen := panelOpen st;
           activeTabIndex := i;
           onOpenCalls := onOpenCalls st |}
  end.

(** The state after the first render and the effect that follows it. *)
Definition mount (activeTabIndexProp : option Z) : PanelState :=
  updateActiveTabIndex activeTabIndexProp
    {| panelOpen := match activeTabIndexProp with Some _ => true | None => false end;
       activeTabIndex := 0;
       onOpenCalls := 0 |}.

(** The handler [() => updatePanelOpen(prev => !prev)] of the header, of the
    close icon and of the one-tab label. *)
Definition togglePanel (st : PanelState) : PanelState :=
  updatePanelOpen (Update negb) st.

(** The handler [() => disabled ? null : updateActiveTabIndex(index)] of a
    tab, given by the index it activates, if any. *)
Definition clickTab (onClick : option Z) (st : PanelState) : PanelState :=
  match onClick with
  | None => st
  | Some index => updateActiveTabIndex (Some index) st
  end.

(** One icon of the closed panel. *)
Record CloseStateButton : Type := {
  buttonId : string;
  buttonOnClick : option Z;
  ohifDisabled : bool;
  tooltipPosition : string
}.

Definition getCloseStateComponent (side : string) (tabs : list Tab)
    : list CloseStateButton :=
  imap (fun (index : nat) (childComponent : Tab) =>
          {| buttonId := name childComponent +:+ "-btn";
             buttonOnClick :=
               if disabled childComponent then None
               else Some (Z.of_nat index);
             ohifDisabled := disabled childComponent;
             tooltipPosition :=
               if String.eqb side "left" then "right" else "left" |})
       tabs.

(** What the panel shows: the icons when closed, and when open the close
    icon beside the one-tab label or the tab grid. *)
Inductive view : Type :=
| ClosedView (buttons : list CloseStateButton)
| OneTabView (dataCy : string)
| TabGridView (grid : TabGrid).

Definition getOpenStateComponent (side : string) (tabs : list Tab)
    (expandedWidth : Z) (st : PanelState) : view :=
  if Z.of_nat (length tabs) =? 1
  then OneTabView (match tabs with tab :: _ => name tab +:+ "-btn" | [] => "" end)
  else TabGridView
         (getTabGridComponent side tabs (panelGridWidth tabs expandedWidth)
            expandedWidth (activeTabIndex st)).

Definition render (side : string) (tabs : list Tab) (expandedWidth : Z)
    (st : PanelState) : view :=
  if panelOpen st
  then getOpenStateComponent side tabs expandedWidth st
  else ClosedView (getCloseStateComponent side tabs).

(** The click handlers of the tabs that a view shows, in order. *)
Definition cellOnClick (c : cell) : list (option Z) :=
  match c with
  | SpacerCell => []
  | TabCell _ _ _ onClick _ => [onClick]
  end.

Definition tabHandlers (v : view) : list (option Z) :=
  match v with
  | ClosedView buttons => map buttonOnClick buttons
  | OneTabView _ => []
  | TabGridView grid => flat_map (flat_map cellOnClick) (fragments grid)
  end.

(** What a user does: click the header, the close icon or the one-tab
    label, all of which toggle the panel, or click the i-th tab shown. *)
Inductive event : Type :=
| ClickToggle
| ClickTabAt (i : nat).

Definition step (side : string) (tabs : list Tab) (expandedWidth : Z)
    (st : PanelState) (ev : event) : PanelState :=
  match ev with
  | ClickToggle => togglePanel st
  | ClickTabAt i =>
      match tabHandlers (render side tabs expandedWidth st) !! i with
      | Some onClick => clickTab onClick st
      | None => st
      end
  end.

Definition run (side : string) (tabs : list Tab) (expandedWidth : Z)
    (st : PanelState) (events : list event) : PanelState :=
  fold_left (step side tabs expandedWidth) events st.

End SidePanel.

Import SidePanel.

(** ** Vocabulary of the specification *)

(** The width that all the tabs take with one spacer between neighbours. *)
Definition naturalWidth (numberOfTabs : Z) : Z :=
  getTabWidth numberOfTabs * numberOfTabs + (numberOfTabs - 1) * 2.

(** The horizontal offset of the grid: the inset that [getGridStyle] writes,
    a [right] inset on the left panel and a [left] inset otherwise. *)
Definition horizontalOffset (side : string) (numberOfTabs : Z)
    (gridWidth expandedPanelWidth : Q) : option Q :=
  match getGridStyle side numberOfTabs gridWidth expandedPanelWidth
        !! (if String.eqb side "left" then "right" else "left") with
  | Some (CssPx offset) => Some offset
  | _ => None
  end.

(** ** Properties of the grid arithmetic *)

Section GridArithmetic.

Implicit Types numberOfTabs availableWidth gridWidth : Z.

Lemma getTabWidth_cases numberOfTabs :
  getTabWidth numberOfTabs = 68 \/ getTabWidth numberOfTabs = 40.
Proof. unfold getTabWidth. destruct (numberOfTabs <? 3); auto. Qed.

Lemma getTabWidth_small numberOfTabs :
  numberOfTabs < 3 -> getTabWidth numberOfTabs = 68.
Proof.
  intros Hlt. unfold getTabWidth.
  destruct (Z.ltb_spec numberOfTabs 3); [reflexivity | lia].
Qed.

Lemma getTabWidth_large numberOfTabs :
  3 <= numberOfTabs -> getTabWidth numberOfTabs = 40.
Proof.
  intros Hge. unfold getTabWidth.
  destruct (Z.ltb_spec numberOfTabs 3); [lia | reflexivity].
Qed.

Lemma getGridWidth_min numberOfTabs availableWidth :
  getGridWidth numberOfTabs availableWidth
  = Z.min (naturalWidth numberOfTabs) availableWidth.
Proof.
  unfold getGridWidth, naturalWidth, tabSpacerWidth. cbv zeta.
  destruct (Z.gtb_spec availableWidth
              (getTabWidth numberOfTabs * numberOfTabs + (numberOfTabs - 1) * 2));
    lia.
Qed.

(** The shape of [getNumGridColumns] off the one-tab case, with the
    quotient [k] pinned between its Euclidean bounds. *)
Lemma getNumGridColumns_grid numberOfTabs gridWidth :
  numberOfTabs <> 1 ->
  let w := getTabWidth numberOfTabs in
  let k := gridWidth / (w + 2) in
  k * (w + 2) <= gridWidth < (k + 1) * (w + 2)
  /\ ((k + 1) * w + k * 2 <= gridWidth ->
      getNumGridColumns numberOfTabs gridWidth = k + 1)
  /\ (gridWidth < (k + 1) * w + k * 2 ->
      getNumGridColumns numberOfTabs gridWidth = k).
Proof.
  intros Hne w k.
  assert (Hw : 0 < w + 2) by (subst w; destruct (getTabWidth_cases numberOfTabs); lia).
  pose proof (Z.div_mod gridWidth (w + 2) ltac:(lia)) as Hdm.
  pose proof (Z.mod_pos_bound gridWidth (w + 2) Hw) as Hmod.
  fold k in Hdm.
  split; [nia |].
  unfold getNumGridColumns.
  destruct (Z.eqb_spec numberOfTabs 1) as [|_]; [contradiction |].
  cbv zeta. unfold tabSpacerWidth. fold w. fold k.
  destruct (Z.leb_spec ((k + 1) * w + k * 2) gridWidth); split; intros; lia.
Qed.

(** C6: for every integer numberOfTabs >= 1 the tab width is 68 when
    numberOfTabs < 3 and 40 otherwise; the function is total, so it yields
    one of these two widths on every input. *)
Theorem getTabWidth_spec numberOfTabs :
  1 <= numberOfTabs ->
  (numberOfTabs < 3 -> getTabWidth numberOfTabs = 68)
  /\ (3 <= numberOfTabs -> getTabWidth numberOfTabs = 40)
  /\ exists w, getTabWidth numberOfTabs = w /\ (w = 68 \/ w = 40).
Proof.
  intros _. split; [apply getTabWidth_small |].
  split; [apply getTabWidth_large |].
  exists (getTabWidth numberOfTabs). split; [reflexivity |].
  apply getTabWidth_cases.
Qed.

Lemma getTabWidth_spec_witness :
  1 <= 2 /\ getTabWidth 2 = 68 /\ 1 <= 3 /\ getTabWidth 3 = 40.
Proof.
  split; [lia |].
  split; [apply (getTabWidth_spec 2); lia |].
  split; [lia |].
  apply (getTabWidth_spec 3); lia.
Defined.

(** C4: for every numberOfTabs >= 1 and availableWidth >= 0 the grid width
    is the smaller of the natural width
    tabWidth * numberOfTabs + (numberOfTabs - 1) * 2 and the available
    width, hence at most the available width. *)
Theorem getGridWidth_spec numberOfTabs availableWidth :
  1 <= numberOfTabs -> 0 <= availableWidth ->
  getGridWidth numberOfTabs availableWidth
  = Z.min (getTabWidth numberOfTabs * numberOfTabs + (numberOfTabs - 1) * 2)
          availableWidth
  /\ getGridWidth numberOfTabs availableWidth <= availableWidth.
Proof.
  intros _ _. rewrite getGridWidth_min. unfold naturalWidth.
  split; [reflexivity | apply Z.le_min_r].
Qed.

Lemma getGridWidth_spec_witness :
  1 <= 5 /\ 0 <= 150
  /\ getGridWidth 5 150 = Z.min (getTabWidth 5 * 5 + (5 - 1) * 2) 150
  /\ getGridWidth 5 150 <= 150.
Proof.
  split; [lia |]. split; [lia |].
  apply (getGridWidth_spec 5 150); lia.
Defined.

(** C1: for every numberOfTabs >= 1 and gridWidth >= 0 the column count is
    1 when numberOfTabs = 1; otherwise, with w the tab width and
    k = floor (gridWidth / (w + 2)), it is k + 1 when
    (k + 1) * w + k * 2 <= gridWidth and k when not. *)
Theorem getNumGridColumns_spec numberOfTabs gridWidth :
  1 <= numberOfTabs -> 0 <= gridWidth ->
  (numberOfTabs = 1 -> getNumGridColumns numberOfTabs gridWidth = 1)
  /\ (numberOfTabs <> 1 ->
      let w := getTabWidth numberOfTabs in
      let k := gridWidth / (w + 2) in
      ((k + 1) * w + k * 2 <= gridWidth ->
       getNumGridColumns numberOfTabs gridWidth = k + 1)
      /\ (~ (k + 1) * w + k * 2 <= gridWidth ->
          getNumGridColumns numberOfTabs gridWidth = k)).
Proof.
  intros _ _. split.
  - intros ->. reflexivity.
  - intros Hne w k.
    destruct (getNumGridColumns_grid numberOfTabs gridWidth Hne)
      as (_ & Hfits & Hnot).
    fold w in Hfits, Hnot. fold k in Hfits, Hnot.
    split; [exact Hfits | intros Hgt; apply Hnot; lia].
Qed.

Lemma getNumGridColumns_spec_witness :
  1 <= 5 /\ 0 <= 208 /\ 5 <> 1
  /\ (4 + 1) * 40 + 4 * 2 <= 208
  /\ getNumGridColumns 5 208 = 4 + 1.
Proof.
  split; [lia |]. split; [lia |]. split; [lia |]. split; [lia |].
  apply (getNumGridColumns_spec 5 208); [lia | lia | lia |].
  vm_compute. discriminate.
Defined.

(** C5: with 5 tabs and 400 pixels available the tab width is 40, the grid
    width 208 and the column count 5; with 5 tabs and 150 pixels available
    the grid width is 150 and the column count 3. *)
Theorem five_tabs_scenarios :
  getTabWidth 5 = 40
  /\ getGridWidth 5 400 = 208
  /\ getNumGridColumns 5 (getGridWidth 5 400) = 5
  /\ getGridWidth 5 150 = 150
  /\ getNumGridColumns 5 (getGridWidth 5 150) = 3.
Proof. repeat split; reflexivity. Qed.

(** C10: for every numberOfTabs >= 1 and availableWidth >= 0, the column
    count of the grid width computed for that many tabs is at most
    numberOfTabs. *)
Theorem columns_at_most_tabs numberOfTabs availableWidth :
  1 <= numberOfTabs -> 0 <= availableWidth ->
  getNumGridColumns numberOfTabs (getGridWidth numberOfTabs availableWidth)
  <= numberOfTabs.
Proof.
  intros Hn Ha.
  destruct (Z.eq_dec numberOfTabs 1) as [-> | Hne]; [reflexivity |].
  pose proof (getGridWidth_min numberOfTabs availableWidth) as Hmin.
  unfold naturalWidth in Hmin.
  set (g := getGridWidth numberOfTabs availableWidth) in *.
  destruct (getNumGridColumns_grid numberOfTabs g Hne) as (Hk & Hfits & Hnot).
  set (w := getTabWidth numberOfTabs) in *.
  set (k := g / (w + 2)) in *.
  assert (Hw : w = 68 \/ w = 40) by apply getTabWidth_cases.
  assert (Hg : g <= w * numberOfTabs + (numberOfTabs - 1) * 2) by lia.
  assert (Hkn : k <= numberOfTabs - 1) by (destruct Hw as [Hw | Hw]; rewrite Hw in *; lia).
  destruct (Z_le_gt_dec ((k + 1) * w + k * 2) g) as [Hle | Hgt].
  - rewrite (Hfits Hle). lia.
  - rewrite Hnot by lia. lia.
Qed.

Lemma columns_at_most_tabs_witness :
  1 <= 5 /\ 0 <= 400 /\ getNumGridColumns 5 (getGridWidth 5 400) <= 5.
Proof.
  split; [lia |]. split; [lia |].
  apply (columns_at_most_tabs 5 400); lia.
Defined.

(** C2, as stated, fails: two tabs in a grid of width 0 (the grid width
    for 0 available pixels) give 0 columns, not at least 1. *)
Lemma no_clamp_counterexample :
  2 <= 2 /\ 0 <= 0
  /\ getGridWidth 2 0 = 0
  /\ 0 < getTabWidth 2
  /\ getNumGridColumns 2 0 = 0
  /\ ~ 1 <= getNumGridColumns 2 (getGridWidth 2 0).
Proof.
  split; [lia |]. split; [lia |]. split; [reflexivity |].
  split; [reflexivity |]. split; [reflexivity |].
  change (~ 1 <= 0). lia.
Qed.

(** C2, amended: for every numberOfTabs >= 2 and gridWidth >= 0 the column
    count is at least 1 when gridWidth >= tabWidth, and it is 0 when
    gridWidth < tabWidth: the count is not clamped. *)
Theorem columns_positive_iff_tab_fits numberOfTabs gridWidth :
  2 <= numberOfTabs -> 0 <= gridWidth ->
  (getTabWidth numberOfTabs <= gridWidth ->
   1 <= getNumGridColumns numberOfTabs gridWidth)
  /\ (gridWidth < getTabWidth numberOfTabs ->
      getNumGridColumns numberOfTabs gridWidth = 0).
Proof.
  intros Hn Hg.
  destruct (getNumGridColumns_grid numberOfTabs gridWidth ltac:(lia))
    as (Hk & Hfits & Hnot).
  set (w := getTabWidth numberOfTabs) in *.
  set (k := gridWidth / (w + 2)) in *.
  assert (Hw : w = 68 \/ w = 40) by apply getTabWidth_cases.
  assert (Hk0 : 0 <= k) by (destruct Hw as [Hw | Hw]; rewrite Hw in *; lia).
  split.
  - intros Hfit.
    destruct (Z_le_gt_dec ((k + 1) * w + k * 2) gridWidth) as [Hle | Hgt].
    + rewrite (Hfits Hle). lia.
    + rewrite Hnot by lia.
      destruct Hw as [Hw | Hw]; rewrite Hw in *; lia.
  - intros Hsmall.
    assert (k = 0) as Hz by (destruct Hw as [Hw | Hw]; rewrite Hw in *; lia).
    rewrite Hnot by (rewrite Hz; lia). exact Hz.
Qed.

Lemma columns_positive_iff_tab_fits_witness :
  2 <= 2 /\ 0 <= 68 /\ 0 <= 67
  /\ getTabWidth 2 <= 68 /\ 1 <= getNumGridColumns 2 68
  /\ 67 < getTabWidth 2 /\ getNumGridColumns 2 67 = 0.
Proof.
  split; [lia |]. split; [lia |]. split; [lia |].
  split; [vm_compute; discriminate |].
  split; [apply (columns_positive_iff_tab_fits 2 68); [lia | lia |];
          vm_compute; discriminate |].
  split; [reflexivity |].
  apply (columns_positive_iff_tab_fits 2 67); [lia | lia | reflexivity].
Defined.

End GridArithmetic.


(** ** Properties of the grid style *)

Section GridStyle.

Implicit Types gridWidth expandedPanelWidth : Q.

Lemma relativePosition_nonneg gridWidth expandedPanelWidth :
  (0 <= relativePosition gridWidth expandedPanelWidth)%Q.
Proof. unfold relativePosition, JS.Math_max. apply Q.le_max_l. Qed.

(** Equal numbers give equal positions, whatever fractions denote them. *)
Lemma relativePosition_compat gridWidth gridWidth' expandedPanelWidth expandedPanelWidth' :
  gridWidth == gridWidth' -> expandedPanelWidth == expandedPanelWidth' ->
  relativePosition gridWidth expandedPanelWidth
  == relativePosition gridWidth' expandedPanelWidth'.
Proof.
  intros Hg He. unfold relativePosition, JS.Math_max, JS.Math_floor.
  apply Q.max_compat; [reflexivity |].
  assert (Hfl : Qfloor (expandedPanelWidth - gridWidth)
                = Qfloor (expandedPanelWidth' - gridWidth')).
  { apply Qfloor_comp. rewrite Hg, He. reflexivity. }
  rewrite Hfl. reflexivity.
Qed.

Lemma getGridStyle_inset side numberOfTabs gridWidth expandedPanelWidth :
  getGridStyle side numberOfTabs gridWidth expandedPanelWidth
    !! (if String.eqb side "left" then "right" else "left")
  = Some (px (relativePosition gridWidth expandedPanelWidth)).
Proof.
  unfold getGridStyle. cbv zeta.
  destruct (String.eqb side "left");
    (rewrite lookup_insert_ne by discriminate); apply lookup_insert_eq.
Qed.

Lemma horizontalOffset_eq side numberOfTabs gridWidth expandedPanelWidth :
  horizontalOffset side numberOfTabs gridWidth expandedPanelWidth
  = Some (Qred (relativePosition gridWidth expandedPanelWidth)).
Proof.
  unfold horizontalOffset. rewrite getGridStyle_inset. reflexivity.
Qed.

(** On integers the floor is idle and the halving is exact. *)
Lemma relativePosition_integers (gridWidth expandedPanelWidth : Z) :
  relativePosition (inject_Z gridWidth) (inject_Z expandedPanelWidth)
  == Qmax 0 (inject_Z (expandedPanelWidth - gridWidth) / 2 - 30).
Proof.
  unfold relativePosition, JS.Math_max, JS.Math_floor.
  apply Q.max_compat; [reflexivity |].
  assert (Hfl : Qfloor (inject_Z expandedPanelWidth - inject_Z gridWidth)
                = (expandedPanelWidth - gridWidth)%Z).
  { rewrite <- (Qfloor_Z (expandedPanelWidth - gridWidth)).
    apply Qfloor_comp. unfold Z.sub.
    rewrite inject_Z_plus, inject_Z_opp. reflexivity. }
  rewrite Hfl. reflexivity.
Qed.

(** When the difference of the widths is even, the position is the integer
    that flooring the half would give. *)
Lemma relativePosition_even_difference (gridWidth expandedPanelWidth : Z) :
  Z.even (expandedPanelWidth - gridWidth) = true ->
  (relativePosition (inject_Z gridWidth) (inject_Z expandedPanelWidth)
   == inject_Z (Z.max 0 ((expandedPanelWidth - gridWidth) / 2 - closeIconWidth)%Z))%Q.
Proof.
  intros Heven. rewrite relativePosition_integers.
  apply Z.even_spec in Heven. destruct Heven as [m Hm]. rewrite Hm.
  replace (2 * m / 2)%Z with m by (rewrite Z.mul_comm, Z.div_mul; lia).
  assert (Hhalf : (inject_Z (2 * m) / 2 - 30 == inject_Z (m - closeIconWidth))%Q).
  { unfold closeIconWidth, Qeq, Qminus, Qdiv, Qplus, Qmult, Qopp, Qinv, inject_Z.
    simpl. lia. }
  rewrite Hhalf.
  destruct (Z.max_spec 0 (m - closeIconWidth)) as [[Hlt ->] | [Hle ->]].
  - apply Q.max_r. change 0%Q with (inject_Z 0). rewrite <- Zle_Qle. lia.
  - apply Q.max_l. change 0%Q with (inject_Z 0). rewrite <- Zle_Qle. lia.
Qed.

(** C7: for every side, every expandedPanelWidth >= 0 and every
    gridWidth >= 0 the grid style carries a horizontal offset, and that
    offset is >= 0, also when gridWidth equals expandedPanelWidth. *)
Theorem horizontalOffset_nonneg side numberOfTabs gridWidth expandedPanelWidth :
  (0 <= expandedPanelWidth)%Q -> (0 <= gridWidth)%Q ->
  exists offset,
    horizontalOffset side numberOfTabs gridWidth expandedPanelWidth = Some offset
    /\ (0 <= offset)%Q.
Proof.
  intros _ _. exists (Qred (relativePosition gridWidth expandedPanelWidth)).
  split; [apply horizontalOffset_eq |].
  rewrite Qred_correct. apply relativePosition_nonneg.
Qed.

Lemma horizontalOffset_nonneg_witness :
  (0 <= 208)%Q /\ (0 <= 208)%Q
  /\ exists offset,
       horizontalOffset "right" 5 208 208 = Some offset /\ (0 <= offset)%Q.
Proof.
  split; [discriminate |]. split; [discriminate |].
  apply (horizontalOffset_nonneg "right" 5 208 208); discriminate.
Defined.

(** C3, evaluated where the code leaves the stated formula: in a panel 249
    pixels wide, two tabs make a grid 138 pixels wide, and the offset is
    25.5, where max (0, floor ((249 - 138) / 2) - 30) is 25.  The floor is
    applied to the difference, before the halving. *)
Theorem horizontalOffset_half_pixel :
  let tabs := [ {| name := "a"; label := "A"; iconName := "tab-a"; disabled := false |};
                {| name := "b"; label := "B"; iconName := "tab-b"; disabled := false |} ] in
  panelGridWidth tabs 249 = 138%Z
  /\ gridStyle (getTabGridComponent "left" tabs (panelGridWidth tabs 249) 249 0)
       !! "right" = Some (CssPx (51 # 2))
  /\ horizontalOffset "left" 2 (inject_Z 138) (inject_Z 249) = Some (51 # 2)
  /\ Z.max 0 ((249 - 138) / 2 - closeIconWidth) = 25%Z
  /\ ~ (51 # 2) == inject_Z (Z.max 0 ((249 - 138) / 2 - closeIconWidth)).
Proof.
  cbv zeta. split; [reflexivity |]. split; [vm_compute; reflexivity |].
  split; [vm_compute; reflexivity |]. split; [reflexivity |].
  vm_compute. discriminate.
Qed.

End GridStyle.

(** ** Placement of the cells of the grid *)

Section Placement.

Implicit Types numColumns numTabs tabIndex : Z.

(** On a tab index and a positive column count, [%] is the mathematical
    remainder. *)
Lemma rem_index tabIndex numColumns :
  0 <= tabIndex -> 1 <= numColumns ->
  JS.rem tabIndex numColumns = Some (tabIndex mod numColumns).
Proof.
  intros Hi Hc. unfold JS.rem.
  destruct (Z.eqb_spec numColumns 0); [lia |].
  rewrite Z.rem_mod_nonneg by lia. reflexivity.
Qed.

Lemma getTabClassNames_rounded_l numColumns numTabs tabIndex isActiveTab isTabDisabled :
  In "rounded-l"
     (getTabClassNames numColumns numTabs tabIndex isActiveTab isTabDisabled)
  <-> JS.strict_eq (JS.rem tabIndex numColumns) 0 = true.
Proof.
  unfold getTabClassNames, classnames. simpl.
  destruct (negb isActiveTab && negb isTabDisabled),
           (JS.strict_eq (JS.rem tabIndex numColumns) 0),
           (JS.strict_eq (JS.rem (tabIndex + 1) numColumns) 0
            || (tabIndex =? numTabs - 1));
    simpl; intuition (try discriminate; auto 10).
Qed.

Lemma getTabClassNames_rounded_r numColumns numTabs tabIndex isActiveTab isTabDisabled :
  In "rounded-r"
     (getTabClassNames numColumns numTabs tabIndex isActiveTab isTabDisabled)
  <-> JS.strict_eq (JS.rem (tabIndex + 1) numColumns) 0
      || (tabIndex =? numTabs - 1) = true.
Proof.
  unfold getTabClassNames, classnames. simpl.
  destruct (negb isActiveTab && negb isTabDisabled),
           (JS.strict_eq (JS.rem tabIndex numColumns) 0),
           (JS.strict_eq (JS.rem (tabIndex + 1) numColumns) 0
            || (tabIndex =? numTabs - 1));
    simpl; intuition (try discriminate; auto 10).
Qed.

(** C8: in a grid of columnCount >= 1 columns every tab has its fragment; a
    spacer cell comes before the tab exactly when index mod columnCount is
    not 0; the tab has the rounded leading corner exactly when
    index mod columnCount = 0, and the rounded trailing corner exactly when
    (index + 1) mod columnCount = 0 or index = numberOfTabs - 1. *)
Theorem tab_grid_placement (side : string) (tabs : list Tab)
    (gridWidth expandedWidth activeTabIndex : Z) (i : nat) (tab : Tab) :
  let numberOfTabs := Z.of_nat (length tabs) in
  let columnCount := getNumGridColumns numberOfTabs gridWidth in
  let index := Z.of_nat i in
  1 <= columnCount ->
  tabs !! i = Some tab ->
  exists spacers className style dataCy onClick iconClassName,
    fragments (getTabGridComponent side tabs gridWidth expandedWidth activeTabIndex)
      !! i
    = Some (spacers ++ [TabCell className style dataCy onClick iconClassName])
    /\ (spacers = [SpacerCell] <-> index mod columnCount <> 0)
    /\ (spacers = [] <-> index mod columnCount = 0)
    /\ (In "rounded-l" className <-> index mod columnCount = 0)
    /\ (In "rounded-r" className
        <-> (index + 1) mod columnCount = 0 \/ index = numberOfTabs - 1).
Proof.
  intros numberOfTabs columnCount index Hcols Htab.
  unfold getTabGridComponent. cbv zeta. simpl fragments.
  fold numberOfTabs. fold columnCount.
  rewrite list_lookup_imap, Htab. simpl. unfold tabFragment. cbv zeta.
  fold index.
  assert (Hindex : 0 <= index) by (subst index; lia).
  eexists _, _, _, _, _, _. split; [reflexivity |].
  rewrite getTabClassNames_rounded_l, getTabClassNames_rounded_r.
  unfold JS.strict_ne.
  rewrite !rem_index by lia. simpl.
  destruct (Z.eqb_spec (index mod columnCount) 0) as [H0 | H0]; simpl.
  - split; [split; [discriminate | contradiction] |].
    split; [tauto |]. split; [tauto |].
    rewrite orb_true_iff, !Z.eqb_eq. reflexivity.
  - split; [tauto |].
    split; [split; [discriminate | contradiction] |].
    split; [split; [discriminate | contradiction] |].
    rewrite orb_true_iff, !Z.eqb_eq. reflexivity.
Qed.

Lemma tab_grid_placement_witness :
  let tabs := [ {| name := "a"; label := "A"; iconName := "tab-a"; disabled := false |};
                {| name := "b"; label := "B"; iconName := "tab-b"; disabled := true |};
                {| name := "c"; label := "C"; iconName := "tab-c"; disabled := false |} ] in
  1 <= getNumGridColumns 3 100
  /\ exists spacers className style dataCy onClick iconClassName,
       fragments (getTabGridComponent "right" tabs 100 248 0) !! 2%nat
       = Some (spacers ++ [TabCell className style dataCy onClick iconClassName])
       /\ (spacers = [SpacerCell] <-> 2 mod getNumGridColumns 3 100 <> 0)
       /\ (spacers = [] <-> 2 mod getNumGridColumns 3 100 = 0)
       /\ (In "rounded-l" className <-> 2 mod getNumGridColumns 3 100 = 0)
       /\ (In "rounded-r" className
           <-> (2 + 1) mod getNumGridColumns 3 100 = 0 \/ 2 = 3 - 1).
Proof.
  cbv zeta. split; [vm_compute; discriminate |].
  exact (tab_grid_placement "right"
           [ {| name := "a"; label := "A"; iconName := "tab-a"; disabled := false |};
             {| name := "b"; label := "B"; iconName := "tab-b"; disabled := true |};
             {| name := "c"; label := "C"; iconName := "tab-c"; disabled := false |} ]
           100 248 0 2
           {| name := "c"; label := "C"; iconName := "tab-c"; disabled := false |}
           ltac:(vm_compute; discriminate) eq_refl).
Defined.

End Placement.

(** ** How many tabs fit in a row *)

Section GridFit.

Implicit Types numberOfTabs availableWidth gridWidth m : Z.

(** The width of a row of [m] tabs with a spacer between neighbours. *)
Lemma getNumGridColumns_fit numberOfTabs gridWidth :
  numberOfTabs <> 1 ->
  let w := getTabWidth numberOfTabs in
  let c := getNumGridColumns numberOfTabs gridWidth in
  c * w + (c - 1) * 2 <= gridWidth < (c + 1) * w + c * 2.
Proof.
  intros Hne w c.
  destruct (getNumGridColumns_grid numberOfTabs gridWidth Hne)
    as (Hk & Hfits & Hnot).
  fold w in Hk, Hfits, Hnot.
  set (k := gridWidth / (w + 2)) in *.
  assert (Hw : w = 68 \/ w = 40) by apply getTabWidth_cases.
  destruct (Z_le_gt_dec ((k + 1) * w + k * 2) gridWidth) as [Hle | Hgt].
  - subst c. rewrite (Hfits Hle). destruct Hw as [Hw | Hw]; rewrite Hw in *; lia.
  - subst c. rewrite Hnot by lia. destruct Hw as [Hw | Hw]; rewrite Hw in *; lia.
Qed.

(** X1: off the one-tab case, the column count is the largest number of
    tabs that fit in the grid width with a spacer between neighbours: a row
    of m tabs fits exactly when m is at most the column count. *)
Theorem columns_largest_fit numberOfTabs gridWidth m :
  numberOfTabs <> 1 ->
  m * getTabWidth numberOfTabs + (m - 1) * 2 <= gridWidth
  <-> m <= getNumGridColumns numberOfTabs gridWidth.
Proof.
  intros Hne.
  pose proof (getNumGridColumns_fit numberOfTabs gridWidth Hne) as Hfit.
  cbv zeta in Hfit.
  set (c := getNumGridColumns numberOfTabs gridWidth) in *.
  destruct (getTabWidth_cases numberOfTabs) as [Hw | Hw]; rewrite Hw in *;
    split; intros H; lia.
Qed.

Lemma columns_largest_fit_witness :
  5 <> 1
  /\ (3 * getTabWidth 5 + (3 - 1) * 2 <= 150 <-> 3 <= getNumGridColumns 5 150)
  /\ (4 * getTabWidth 5 + (4 - 1) * 2 <= 150 <-> 4 <= getNumGridColumns 5 150).
Proof.
  split; [discriminate |].
  split; [apply (columns_largest_fit 5 150 3) | apply (columns_largest_fit 5 150 4)];
    discriminate.
Defined.

(** X2: a wider grid never has fewer columns. *)
Theorem columns_monotone numberOfTabs gridWidth gridWidth' :
  gridWidth <= gridWidth' ->
  getNumGridColumns numberOfTabs gridWidth
  <= getNumGridColumns numberOfTabs gridWidth'.
Proof.
  intros Hle.
  destruct (Z.eq_dec numberOfTabs 1) as [-> | Hne]; [reflexivity |].
  pose proof (getNumGridColumns_fit numberOfTabs gridWidth Hne) as Hfit.
  pose proof (getNumGridColumns_fit numberOfTabs gridWidth' Hne) as Hfit'.
  cbv zeta in Hfit, Hfit'.
  destruct (getTabWidth_cases numberOfTabs) as [Hw | Hw]; rewrite Hw in *; lia.
Qed.

Lemma columns_monotone_witness :
  150 <= 208 /\ getNumGridColumns 5 150 <= getNumGridColumns 5 208.
Proof.
  split; [lia |]. apply (columns_monotone 5 150 208). lia.
Defined.

(** X3: when the available width holds all the tabs with their spacers, the
    grid has its natural width and one row: as many columns as tabs. *)
Theorem one_row_when_tabs_fit numberOfTabs availableWidth :
  1 <= numberOfTabs ->
  getTabWidth numberOfTabs * numberOfTabs + (numberOfTabs - 1) * 2
  <= availableWidth ->
  getGridWidth numberOfTabs availableWidth
  = getTabWidth numberOfTabs * numberOfTabs + (numberOfTabs - 1) * 2
  /\ getNumGridColumns numberOfTabs (getGridWidth numberOfTabs availableWidth)
     = numberOfTabs.
Proof.
  intros Hn Hfit.
  pose proof (getGridWidth_min numberOfTabs availableWidth) as Hmin.
  unfold naturalWidth in Hmin.
  split; [lia |].
  destruct (Z.eq_dec numberOfTabs 1) as [-> | Hne]; [reflexivity |].
  set (g := getGridWidth numberOfTabs availableWidth) in *.
  pose proof (getNumGridColumns_fit numberOfTabs g Hne) as Hc.
  cbv zeta in Hc.
  destruct (getTabWidth_cases numberOfTabs) as [Hw | Hw]; rewrite Hw in *; nia.
Qed.

Lemma one_row_when_tabs_fit_witness :
  1 <= 4 /\ getTabWidth 4 * 4 + (4 - 1) * 2 <= 208
  /\ getGridWidth 4 208 = getTabWidth 4 * 4 + (4 - 1) * 2
  /\ getNumGridColumns 4 (getGridWidth 4 208) = 4.
Proof.
  split; [lia |]. split; [vm_compute; discriminate |].
  apply (one_row_when_tabs_fit 4 208); [lia | vm_compute; discriminate].
Defined.

(** X4: when the available width does not hold two or more tabs with their
    spacers, the grid takes the available width and wraps: fewer columns
    than tabs. *)
Theorem wraps_when_tabs_overflow numberOfTabs availableWidth :
  2 <= numberOfTabs ->
  availableWidth
  < getTabWidth numberOfTabs * numberOfTabs + (numberOfTabs - 1) * 2 ->
  getGridWidth numberOfTabs availableWidth = availableWidth
  /\ getNumGridColumns numberOfTabs (getGridWidth numberOfTabs availableWidth)
     < numberOfTabs.
Proof.
  intros Hn Hover.
  pose proof (getGridWidth_min numberOfTabs availableWidth) as Hmin.
  unfold naturalWidth in Hmin.
  assert (Hg : getGridWidth numberOfTabs availableWidth = availableWidth) by lia.
  split; [exact Hg |]. rewrite Hg.
  pose proof (getNumGridColumns_fit numberOfTabs availableWidth ltac:(lia)) as Hc.
  cbv zeta in Hc.
  destruct (getTabWidth_cases numberOfTabs) as [Hw | Hw]; rewrite Hw in *; nia.
Qed.

Lemma wraps_when_tabs_overflow_witness :
  2 <= 6 /\ 208 < getTabWidth 6 * 6 + (6 - 1) * 2
  /\ getGridWidth 6 208 = 208
  /\ getNumGridColumns 6 (getGridWidth 6 208) < 6.
Proof.
  split; [lia |]. split; [reflexivity |].
  apply (wraps_when_tabs_overflow 6 208); [lia | reflexivity].
Defined.

End GridFit.

(** ** The grid inside the panel *)

Section GridInPanel.

(** X5: with the default panel width of 248 the grid shows every tab in one
    row up to five tabs, and five columns from there on. *)
Theorem default_panel_columns (tabs : list Tab) :
  getNumGridColumns (Z.of_nat (length tabs)) (panelGridWidth tabs 248)
  = Z.min (Z.of_nat (length tabs)) 5.
Proof.
  unfold panelGridWidth. cbv zeta.
  set (n := Z.of_nat (length tabs)).
  assert (Hn : 0 <= n) by (subst n; lia).
  change (248 - closeIconWidth - gridHorizontalPadding) with 208.
  destruct (Z_lt_ge_dec n 6) as [Hsmall | Hlarge].
  - assert (Hcases : n = 0 \/ n = 1 \/ n = 2 \/ n = 3 \/ n = 4 \/ n = 5) by lia.
    destruct Hcases as [-> | [-> | [-> | [-> | [-> | ->]]]]]; reflexivity.
  - assert (Hg : getGridWidth n 208 = 208).
    { rewrite getGridWidth_min. unfold naturalWidth.
      rewrite (getTabWidth_large n) by lia. lia. }
    rewrite Hg. unfold getNumGridColumns.
    destruct (Z.eqb_spec n 1); [lia |].
    rewrite (getTabWidth_large n) by lia.
    change (208 / (40 + tabSpacerWidth)) with 4. cbv zeta.
    change ((4 + 1) * 40 + 4 * tabSpacerWidth <=? 208) with true.
    cbv iota. lia.
Qed.

(** X6: whatever the tabs and the panel width, the grid that [SidePanel]
    lays out, shifted by its horizontal offset, leaves room for the close
    icon inside the panel: offset + gridWidth + closeIconWidth is at most
    expandedWidth. *)
Theorem grid_stays_in_panel (side : string) (tabs : list Tab)
    (expandedWidth : Z) :
  exists offset : Q,
    horizontalOffset side (Z.of_nat (length tabs))
      (inject_Z (panelGridWidth tabs expandedWidth)) (inject_Z expandedWidth)
    = Some offset
    /\ (offset + inject_Z (panelGridWidth tabs expandedWidth)
        + inject_Z closeIconWidth <= inject_Z expandedWidth)%Q.
Proof.
  set (g := panelGridWidth tabs expandedWidth).
  assert (Hg : g <= expandedWidth - 40).
  { subst g. unfold panelGridWidth. cbv zeta. rewrite getGridWidth_min.
    unfold closeIconWidth, gridHorizontalPadding. lia. }
  eexists. split; [apply horizontalOffset_eq |].
  rewrite Qred_correct, relativePosition_integers.
  assert (HgQ : (inject_Z g <= inject_Z expandedWidth - 40)%Q).
  { change 40%Q with (inject_Z 40). unfold Qminus.
    rewrite <- inject_Z_opp, <- inject_Z_plus, <- Zle_Qle. lia. }
  assert (Hdiff : (inject_Z (expandedWidth - g)
                   == inject_Z expandedWidth - inject_Z g)%Q).
  { unfold Z.sub, Qminus. rewrite inject_Z_plus, inject_Z_opp. reflexivity. }
  rewrite Hdiff. change (inject_Z closeIconWidth) with 30%Q.
  clear Hdiff. generalize dependent (inject_Z g).
  generalize (inject_Z expandedWidth). intros y x Hxy.
  assert (Hhalf : ((y - x) / 2 == (y - x) * (1 # 2))%Q) by reflexivity.
  destruct (Q.max_spec 0 ((y - x) / 2 - 30)) as [[_ Hmax] | [_ Hmax]];
    rewrite Hmax; [rewrite Hhalf |]; lra.
Qed.

(** X7: when the panel width is even, the horizontal offset that
    [SidePanel] gives its grid is the integer
    max (0, (expandedWidth - gridWidth) / 2 - closeIconWidth). *)
Theorem even_panel_integer_offset (side : string) (tabs : list Tab)
    (expandedWidth : Z) :
  Z.even expandedWidth = true ->
  exists offset : Q,
    horizontalOffset side (Z.of_nat (length tabs))
      (inject_Z (panelGridWidth tabs expandedWidth)) (inject_Z expandedWidth)
    = Some offset
    /\ (offset
        == inject_Z (Z.max 0 ((expandedWidth - panelGridWidth tabs expandedWidth) / 2
                              - closeIconWidth)%Z))%Q.
Proof.
  intros Heven.
  eexists. split; [apply horizontalOffset_eq |].
  rewrite Qred_correct. apply relativePosition_even_difference.
  unfold panelGridWidth. cbv zeta. rewrite getGridWidth_min.
  unfold naturalWidth, closeIconWidth, gridHorizontalPadding.
  set (n := Z.of_nat (length tabs)).
  apply Z.even_spec in Heven. destruct Heven as [h ->].
  apply Z.even_spec.
  destruct (getTabWidth_cases n) as [Hw | Hw]; rewrite Hw;
    destruct (Z.min_spec (68 * n + (n - 1) * 2) (2 * h - 30 - 10)) as [[_ Hm] | [_ Hm]];
    destruct (Z.min_spec (40 * n + (n - 1) * 2) (2 * h - 30 - 10)) as [[_ Hm'] | [_ Hm']];
    rewrite ?Hm, ?Hm'.
  all: first [ exists 20; lia
             | exists (h - 35 * n + 1); lia
             | exists (h - 21 * n + 1); lia ].
Qed.

Lemma even_panel_integer_offset_witness :
  Z.even 248 = true
  /\ exists offset : Q,
       horizontalOffset "left" 3
         (inject_Z (panelGridWidth
                      [ {| name := "a"; label := "A"; iconName := "tab-a"; disabled := false |};
                        {| name := "b"; label := "B"; iconName := "tab-b"; disabled := false |};
                        {| name := "c"; label := "C"; iconName := "tab-c"; disabled := false |} ]
                      248))
         (inject_Z 248)
       = Some offset
       /\ (offset == inject_Z 32)%Q.
Proof.
  split; [reflexivity |].
  exact (even_panel_integer_offset "left"
           [ {| name := "a"; label := "A"; iconName := "tab-a"; disabled := false |};
             {| name := "b"; label := "B"; iconName := "tab-b"; disabled := false |};
             {| name := "c"; label := "C"; iconName := "tab-c"; disabled := false |} ]
           248 eq_refl).
Defined.

End GridInPanel.

(** ** The cells of the grid, whatever the column count *)

Section GridCells.

Lemma fragments_lookup (side : string) (tabs : list Tab)
    (gridWidth expandedWidth active : Z) (i : nat) (tab : Tab) :
  tabs !! i = Some tab ->
  fragments (getTabGridComponent side tabs gridWidth expandedWidth active) !! i
  = Some (tabFragment
            (getNumGridColumns (Z.of_nat (length tabs)) gridWidth)
            (Z.of_nat (length tabs)) active i tab).
Proof.
  intros Htab. unfold getTabGridComponent. cbv zeta. simpl fragments.
  rewrite list_lookup_imap, Htab. reflexivity.
Qed.

Lemma classnames_flag (base : list string) (flags : list (string * bool))
    (c : string) :
  ~ In c base ->
  In c (classnames base flags) <-> In (c, true) flags.
Proof.
  intros Hbase. unfold classnames. rewrite in_app_iff, in_flat_map.
  split.
  - intros [Hin | [[c' on] [Hflag Hc]]]; [contradiction |].
    simpl in Hc. destruct on; [| contradiction].
    destruct Hc as [-> | []]. exact Hflag.
  - intros Hflag. right. exists (c, true). split; [exact Hflag |].
    simpl. left. reflexivity.
Qed.

(** X8: the grid has one fragment per tab, in order, whatever the column
    count; the fragment of a tab holds at most one spacer, which comes
    first, and one button, whose width is the tab width, whose [data-cy]
    is the tab name followed by -btn, and whose click activates the tab
    unless the tab is disabled. *)
Theorem grid_one_button_per_tab (side : string) (tabs : list Tab)
    (gridWidth expandedWidth active : Z) :
  let grid := getTabGridComponent side tabs gridWidth expandedWidth active in
  length (fragments grid) = length tabs
  /\ forall (i : nat) (tab : Tab),
       tabs !! i = Some tab ->
       exists spacers className iconClassName,
         fragments grid !! i
         = Some (spacers
                 ++ [TabCell className
                       {["width" := px (inject_Z (getTabWidth (Z.of_nat (length tabs))))]}
                       (name tab +:+ "-btn")
                       (if disabled tab then None else Some (Z.of_nat i))
                       iconClassName])
         /\ (spacers = [] \/ spacers = [SpacerCell]).
Proof.
  cbv zeta. split.
  - unfold getTabGridComponent. cbv zeta. simpl fragments. apply length_imap.
  - intros i tab Htab. rewrite (fragments_lookup _ _ _ _ _ _ _ Htab).
    unfold tabFragment. cbv zeta. eexists _, _, _.
    split; [reflexivity |].
    destruct (JS.strict_ne _ _); auto.
Qed.

(** X9: the highlighted icon marks the active tab and no other; the hover
    class is on the tabs that are neither active nor disabled. *)
Theorem grid_active_and_hover (side : string) (tabs : list Tab)
    (gridWidth expandedWidth active : Z) (i : nat) (tab : Tab) :
  tabs !! i = Some tab ->
  exists spacers className style dataCy onClick iconClassName,
    fragments (getTabGridComponent side tabs gridWidth expandedWidth active) !! i
    = Some (spacers ++ [TabCell className style dataCy onClick iconClassName])
    /\ (In "bg-customblue-40" iconClassName <-> Z.of_nat i = active)
    /\ (In "hover:text-primary-active" className
        <-> Z.of_nat i <> active /\ disabled tab = false).
Proof.
  intros Htab. rewrite (fragments_lookup _ _ _ _ _ _ _ Htab).
  unfold tabFragment. cbv zeta. eexists _, _, _, _, _, _.
  split; [reflexivity |].
  unfold getTabIconClassNames, getTabClassNames.
  rewrite !classnames_flag
    by (simpl; intros H; repeat destruct H as [H | H]; try discriminate; exact H).
  destruct (Z.eqb_spec (Z.of_nat i) active) as [Heq | Hne];
    destruct (disabled tab); simpl; split; split;
    intuition (try discriminate; try congruence).
Qed.

Lemma grid_active_and_hover_witness :
  let tabs := [ {| name := "a"; label := "A"; iconName := "tab-a"; disabled := false |};
                {| name := "b"; label := "B"; iconName := "tab-b"; disabled := true |} ] in
  tabs !! 1%nat
  = Some {| name := "b"; label := "B"; iconName := "tab-b"; disabled := true |}
  /\ exists spacers className style dataCy onClick iconClassName,
       fragments (getTabGridComponent "left" tabs 138 248 0) !! 1%nat
       = Some (spacers ++ [TabCell className style dataCy onClick iconClassName])
       /\ (In "bg-customblue-40" iconClassName <-> 1 = 0)
       /\ (In "hover:text-primary-active" className <-> 1 <> 0 /\ true = false).
Proof.
  cbv zeta. split; [reflexivity |].
  exact (grid_active_and_hover "left"
           [ {| name := "a"; label := "A"; iconName := "tab-a"; disabled := false |};
             {| name := "b"; label := "B"; iconName := "tab-b"; disabled := true |} ]
           138 248 0 1
           {| name := "b"; label := "B"; iconName := "tab-b"; disabled := true |}
           eq_refl).
Defined.

Lemma grid_one_button_per_tab_witness :
  let tabs := [ {| name := "a"; label := "A"; iconName := "tab-a"; disabled := false |};
                {| name := "b"; label := "B"; iconName := "tab-b"; disabled := true |} ] in
  let grid := getTabGridComponent "left" tabs 138 248 0 in
  tabs !! 1%nat
  = Some {| name := "b"; label := "B"; iconName := "tab-b"; disabled := true |}
  /\ length (fragments grid) = 2%nat
  /\ exists spacers className iconClassName,
       fragments grid !! 1%nat
       = Some (spacers
               ++ [TabCell className {["width" := px (inject_Z 68)]} "b-btn" None
                     iconClassName])
       /\ (spacers = [] \/ spacers = [SpacerCell]).
Proof.
  cbv zeta. split; [reflexivity |].
  pose proof (grid_one_button_per_tab "left"
           [ {| name := "a"; label := "A"; iconName := "tab-a"; disabled := false |};
             {| name := "b"; label := "B"; iconName := "tab-b"; disabled := true |} ]
           138 248 0) as [Hlen Hcells].
  split; [exact Hlen |].
  exact (Hcells 1%nat
           {| name := "b"; label := "B"; iconName := "tab-b"; disabled := true |}
           eq_refl).
Defined.

(** X10: when two or more tabs get a grid narrower than one tab, the column
    count is 0 and the remainders are NaN: every tab, the first included,
    has a spacer before it, no tab has the rounded leading corner, and only
    the last tab has the rounded trailing corner. *)
Theorem narrow_grid_cells (side : string) (tabs : list Tab)
    (gridWidth expandedWidth active : Z) (i : nat) (tab : Tab) :
  2 <= Z.of_nat (length tabs) ->
  0 <= gridWidth < getTabWidth (Z.of_nat (length tabs)) ->
  tabs !! i = Some tab ->
  exists className style dataCy onClick iconClassName,
    fragments (getTabGridComponent side tabs gridWidth expandedWidth active) !! i
    = Some [SpacerCell; TabCell className style dataCy onClick iconClassName]
    /\ ~ In "rounded-l" className
    /\ (In "rounded-r" className <-> Z.of_nat i = Z.of_nat (length tabs) - 1).
Proof.
  intros Hn Hnarrow Htab.
  rewrite (fragments_lookup _ _ _ _ _ _ _ Htab).
  set (n := Z.of_nat (length tabs)) in *.
  assert (Hzero : getNumGridColumns n gridWidth = 0).
  { pose proof (getNumGridColumns_fit n gridWidth ltac:(lia)) as Hfit.
    cbv zeta in Hfit.
    destruct (getTabWidth_cases n) as [Hw | Hw]; rewrite Hw in *; lia. }
  rewrite Hzero. unfold tabFragment. cbv zeta.
  eexists _, _, _, _, _. split; [reflexivity |].
  rewrite getTabClassNames_rounded_l, getTabClassNames_rounded_r.
  simpl. split; [discriminate |]. apply Z.eqb_eq.
Qed.

Lemma narrow_grid_cells_witness :
  let tabs := [ {| name := "a"; label := "A"; iconName := "tab-a"; disabled := false |};
                {| name := "b"; label := "B"; iconName := "tab-b"; disabled := false |} ] in
  2 <= Z.of_nat (length tabs)
  /\ 0 <= 60 < getTabWidth (Z.of_nat (length tabs))
  /\ exists className style dataCy onClick iconClassName,
       fragments (getTabGridComponent "left" tabs 60 100 0) !! 0%nat
       = Some [SpacerCell; TabCell className style dataCy onClick iconClassName]
       /\ ~ In "rounded-l" className
       /\ (In "rounded-r" className <-> 0 = 2 - 1).
Proof.
  cbv zeta. split; [vm_compute; discriminate |].
  split; [split; [vm_compute; discriminate | reflexivity] |].
  pose proof (narrow_grid_cells "left"
           [ {| name := "a"; label := "A"; iconName := "tab-a"; disabled := false |};
             {| name := "b"; label := "B"; iconName := "tab-b"; disabled := false |} ]
           60 100 0 0
           {| name := "a"; label := "A"; iconName := "tab-a"; disabled := false |})
    as Hcells.
  apply Hcells; [vm_compute; discriminate | | reflexivity].
  split; [vm_compute; discriminate | reflexivity].
Defined.

End GridCells.

(** ** Opening, closing and choosing a tab *)

Section PanelBehaviour.

Context (side : string) (tabs : list Tab) (expandedWidth : Z).

(** The handler of the tab at an index. *)
Local Abbreviation handlerOf i tab :=
  (if disabled tab then None else Some (Z.of_nat i)).

Lemma tabFragment_handler (numCols numTabs active : Z) (i : nat) (tab : Tab) :
  flat_map cellOnClick (tabFragment numCols numTabs active i tab)
  = [handlerOf i tab].
Proof.
  unfold tabFragment. cbv zeta.
  destruct (JS.strict_ne _ _); reflexivity.
Qed.

Lemma flat_map_imap_handlers (f : nat -> Tab -> list cell)
    (h : nat -> Tab -> option Z) (l : list Tab) :
  (forall i tab, flat_map cellOnClick (f i tab) = [h i tab]) ->
  flat_map (flat_map cellOnClick) (imap f l) = imap h l.
Proof.
  revert f h. induction l as [| tab l IH]; intros f h Hfh; [reflexivity |].
  simpl. rewrite Hfh. simpl. f_equal.
  apply IH. intros i tab'. apply Hfh.
Qed.

Lemma tabHandlers_closed (i : nat) :
  tabHandlers (ClosedView (getCloseStateComponent side tabs)) !! i
  = (fun tab => handlerOf i tab) <$> tabs !! i.
Proof.
  simpl. unfold getCloseStateComponent.
  rewrite list_lookup_fmap, list_lookup_imap.
  destruct (tabs !! i); reflexivity.
Qed.

Lemma tabHandlers_grid (gridWidth active : Z) (i : nat) :
  tabHandlers
    (TabGridView (getTabGridComponent side tabs gridWidth expandedWidth active))
  !! i
  = (fun tab => handlerOf i tab) <$> tabs !! i.
Proof.
  simpl.
  rewrite (flat_map_imap_handlers _ (fun i tab => handlerOf i tab))
    by (intros; apply tabFragment_handler).
  apply list_lookup_imap.
Qed.

Lemma shown_dec (st : PanelState) :
  (panelOpen st = true /\ length tabs = 1%nat)
  \/ ~ (panelOpen st = true /\ length tabs = 1%nat).
Proof.
  destruct (panelOpen st); [| right; intros [H _]; discriminate].
  destruct (Nat.eq_dec (length tabs) 1%nat) as [Hone | Hne];
    [left; auto | right; intros [_ H]; contradiction].
Qed.

Lemma tabHandlers_shown (st : PanelState) (i : nat) :
  ~ (panelOpen st = true /\ length tabs = 1%nat) ->
  tabHandlers (render side tabs expandedWidth st) !! i
  = (fun tab => handlerOf i tab) <$> tabs !! i.
Proof.
  unfold render, getOpenStateComponent.
  intros Hshown. destruct (panelOpen st).
  - destruct (Z.eqb_spec (Z.of_nat (length tabs)) 1) as [Hone | _].
    + exfalso. apply Hshown. split; [reflexivity | lia].
    + apply tabHandlers_grid.
  - apply tabHandlers_closed.
Qed.


(** X12: clicking the i-th tab shown opens the panel on that tab and calls
    [onOpen] once when the tab is enabled, and changes nothing when the tab
    is disabled. *)
Theorem click_tab_shown (st : PanelState) (i : nat) (tab : Tab) :
  ~ (panelOpen st = true /\ length tabs = 1%nat) ->
  tabs !! i = Some tab ->
  step side tabs expandedWidth st (ClickTabAt i)
  = if disabled tab then st
    else {| panelOpen := true;
            activeTabIndex := Z.of_nat i;
            onOpenCalls := S (onOpenCalls st) |}.
Proof.
  intros Hshown Htab. unfold step.
  rewrite (tabHandlers_shown st i Hshown), Htab. simpl.
  destruct (disabled tab); reflexivity.
Qed.

(** Every step leaves the active index where it was or moves it to the
    index of an enabled tab. *)
Lemma step_activeTabIndex (st : PanelState) (ev : event) :
  activeTabIndex (step side tabs expandedWidth st ev) = activeTabIndex st
  \/ exists (i : nat) (tab : Tab),
       activeTabIndex (step side tabs expandedWidth st ev) = Z.of_nat i
       /\ tabs !! i = Some tab /\ disabled tab = false.
Proof.
  destruct ev as [| i]; [left; reflexivity |].
  unfold step.
  destruct (tabHandlers (render side tabs expandedWidth st) !! i)
    as [onClick |] eqn:Hh; [| left; reflexivity].
  destruct (shown_dec st) as [Hone | Hshown].
  - unfold render, getOpenStateComponent in Hh. destruct Hone as [Ho Hl].
    rewrite Ho, Hl in Hh. discriminate.
  - rewrite (tabHandlers_shown st i Hshown) in Hh.
    destruct (tabs !! i) as [tab |] eqn:Htab; [| discriminate].
    simpl in Hh. injection Hh as <-.
    destruct (disabled tab) eqn:Hd; [left; reflexivity |].
    right. exists i, tab. simpl. auto.
Qed.

(** X13: along any sequence of clicks after mounting, the active tab index
    is the initial one (the [activeTabIndex] prop, or 0 when it is null) or
    the index of a tab that exists and is not disabled. *)
Theorem active_tab_initial_or_enabled (activeTabIndexProp : option Z)
    (events : list event) :
  let st := run side tabs expandedWidth (mount activeTabIndexProp) events in
  activeTabIndex st = default 0 activeTabIndexProp
  \/ exists (i : nat) (tab : Tab),
       activeTabIndex st = Z.of_nat i
       /\ tabs !! i = Some tab /\ disabled tab = false.
Proof.
  cbv zeta. unfold run.
  assert (Hinit : activeTabIndex (mount activeTabIndexProp)
                  = default 0 activeTabIndexProp)
    by (destruct activeTabIndexProp; reflexivity).
  revert Hinit. generalize (mount activeTabIndexProp) as st.
  induction events as [| ev events IH] using rev_ind; intros st Hinit.
  - left. exact Hinit.
  - rewrite fold_left_app. simpl.
    destruct (step_activeTabIndex
                (fold_left (step side tabs expandedWidth) events st) ev)
      as [Hsame | Hmoved].
    + rewrite Hsame. apply IH. exact Hinit.
    + right. exact Hmoved.
Qed.

(** X14: along any sequence of clicks, when there are tabs and the
    [activeTabIndex] prop is null or the index of a tab, the active index
    stays the index of a tab. *)
Theorem active_tab_exists (activeTabIndexProp : option Z)
    (events : list event) :
  tabs <> [] ->
  (forall p, activeTabIndexProp = Some p -> 0 <= p < Z.of_nat (length tabs)) ->
  let st := run side tabs expandedWidth (mount activeTabIndexProp) events in
  0 <= activeTabIndex st < Z.of_nat (length tabs).
Proof.
  intros Htabs Hprop. cbv zeta. unfold run.
  assert (Hinit : 0 <= activeTabIndex (mount activeTabIndexProp)
                  < Z.of_nat (length tabs)).
  { destruct activeTabIndexProp as [p |]; simpl.
    - apply Hprop. reflexivity.
    - destruct tabs; [contradiction | simpl; lia]. }
  revert Hinit. generalize (mount activeTabIndexProp) as st.
  induction events as [| ev events IH] using rev_ind; intros st Hinit.
  - exact Hinit.
  - rewrite fold_left_app. simpl.
    destruct (step_activeTabIndex
                (fold_left (step side tabs expandedWidth) events st) ev)
      as [Hsame | (i & tab & Hi & Htab & _)].
    + rewrite Hsame. apply IH. exact Hinit.
    + rewrite Hi. apply lookup_lt_Some in Htab. lia.
Qed.

Lemma togglePanel_eq (st : PanelState) :
  step side tabs expandedWidth st ClickToggle
  = {| panelOpen := negb (panelOpen st);
       activeTabIndex := activeTabIndex st;
       onOpenCalls := S (onOpenCalls st) |}.
Proof. reflexivity. Qed.

(** X15: n clicks in a row on the header, the close icon or the one-tab
    label call [onOpen] n times, the clicks that close the panel included;
    they leave the panel as it was when n is even and flipped when n is
    odd, and keep the active tab.  Closing through a null [activeTabIndex]
    prop does not call [onOpen]. *)
Theorem toggles_call_onOpen (st : PanelState) (n : nat) :
  let st' := run side tabs expandedWidth st (replicate n ClickToggle) in
  onOpenCalls st' = (onOpenCalls st + n)%nat
  /\ panelOpen st' = (if Nat.even n then panelOpen st else negb (panelOpen st))
  /\ activeTabIndex st' = activeTabIndex st
  /\ onOpenCalls (updateActiveTabIndex None st') = onOpenCalls st'
  /\ panelOpen (updateActiveTabIndex None st') = false.
Proof.
  cbv zeta. unfold run.
  assert (Hrun : forall st0,
             onOpenCalls (fold_left (step side tabs expandedWidth)
                            (replicate n ClickToggle) st0)
             = (onOpenCalls st0 + n)%nat
             /\ panelOpen (fold_left (step side tabs expandedWidth)
                             (replicate n ClickToggle) st0)
                = (if Nat.even n then panelOpen st0 else negb (panelOpen st0))
             /\ activeTabIndex (fold_left (step side tabs expandedWidth)
                                  (replicate n ClickToggle) st0)
                = activeTabIndex st0).
  { induction n as [| n IH]; intros st0;
      [simpl; repeat split; lia |].
    change (replicate (S n) ClickToggle)
      with (ClickToggle :: replicate n ClickToggle).
    cbn [fold_left]. rewrite togglePanel_eq.
    destruct (IH {| panelOpen := negb (panelOpen st0);
                   activeTabIndex := activeTabIndex st0;
                   onOpenCalls := S (onOpenCalls st0) |})
      as (Hcalls & Hopen & Hactive).
    rewrite Hcalls, Hopen, Hactive. cbn [panelOpen activeTabIndex onOpenCalls].
    split; [lia |]. split; [| reflexivity].
    rewrite Nat.even_succ, <- Nat.negb_even.
    destruct (Nat.even n), (panelOpen st0); reflexivity. }
  destruct (Hrun st) as (Hcalls & Hopen & Hactive).
  repeat split; assumption || reflexivity.
Qed.

End PanelBehaviour.


Lemma click_tab_shown_witness :
  let tabs := [ {| name := "a"; label := "A"; iconName := "tab-a"; disabled := false |};
                {| name := "b"; label := "B"; iconName := "tab-b"; disabled := false |} ] in
  let closed := {| panelOpen := false; activeTabIndex := 0; onOpenCalls := 0 |} in
  ~ (panelOpen closed = true /\ length tabs = 1%nat)
  /\ tabs !! 1%nat
     = Some {| name := "b"; label := "B"; iconName := "tab-b"; disabled := false |}
  /\ step "right" tabs 248 closed (ClickTabAt 1)
     = {| panelOpen := true; activeTabIndex := 1; onOpenCalls := 1 |}.
Proof.
  cbv zeta. split; [intros [H _]; discriminate |]. split; [reflexivity |].
  pose proof (click_tab_shown "right"
                [ {| name := "a"; label := "A"; iconName := "tab-a"; disabled := false |};
                  {| name := "b"; label := "B"; iconName := "tab-b"; disabled := false |} ]
                248 {| panelOpen := false; activeTabIndex := 0; onOpenCalls := 0 |}
                1%nat
                {| name := "b"; label := "B"; iconName := "tab-b"; disabled := false |})
    as Hclick.
  apply Hclick; [intros [H _]; discriminate | reflexivity].
Defined.

Lemma active_tab_exists_witness :
  let tabs := [ {| name := "a"; label := "A"; iconName := "tab-a"; disabled := false |};
                {| name := "b"; label := "B"; iconName := "tab-b"; disabled := true |};
                {| name := "c"; label := "C"; iconName := "tab-c"; disabled := false |} ] in
  let events := [ClickTabAt 2; ClickToggle; ClickTabAt 1; ClickTabAt 7; ClickToggle] in
  tabs <> []
  /\ (forall p, Some 1 = Some p -> 0 <= p < Z.of_nat (length tabs))
  /\ 0 <= activeTabIndex (run "left" tabs 248 (mount (Some 1)) events)
     < Z.of_nat (length tabs).
Proof.
  cbv zeta.
  assert (Hprop : forall p, Some 1 = Some p -> 0 <= p < 3)
    by (intros p [= <-]; lia).
  split; [discriminate |]. split; [exact Hprop |].
  apply (active_tab_exists "left" _ 248 (Some 1)); [discriminate | exact Hprop].
Defined.

(** ** Shortening the patient details *)

Section Ellipsis.

Implicit Types (str : string) (maxLength : Z) (n : nat).

Lemma length_append str str' :
  String.length (str +:+ str') = (String.length str + String.length str')%nat.
Proof. induction str as [| c str IH]; simpl; [reflexivity | rewrite IH; reflexivity]. Qed.

Lemma length_prefix n str :
  String.length (String.substring 0 n str) = Nat.min n (String.length str).
Proof.
  revert str. induction n as [| n IH]; intros [| c str]; simpl;
    try reflexivity.
  rewrite IH. reflexivity.
Qed.

(** The first [n] characters of a string survive what is appended to it. *)
Lemma prefix_of_append n str str' :
  (n <= String.length str)%nat ->
  String.substring 0 n (str +:+ str') = String.substring 0 n str.
Proof.
  revert str. induction n as [| n IH]; intros [| c str] Hn; simpl in *.
  - destruct str'; reflexivity.
  - reflexivity.
  - lia.
  - rewrite IH by lia. reflexivity.
Qed.

Lemma prefix_of_prefix n str :
  String.substring 0 n (String.substring 0 n str) = String.substring 0 n str.
Proof.
  revert str. induction n as [| n IH]; intros [| c str]; simpl;
    try reflexivity.
  rewrite IH. reflexivity.
Qed.

Lemma formatWithEllipsis_short str maxLength :
  Z.of_nat (String.length str) <= maxLength ->
  formatWithEllipsis str maxLength = str.
Proof.
  intros Hshort. unfold formatWithEllipsis.
  destruct (Z.gtb_spec (Z.of_nat (String.length str)) maxLength); [lia | reflexivity].
Qed.

Lemma formatWithEllipsis_long str maxLength :
  maxLength < Z.of_nat (String.length str) ->
  formatWithEllipsis str maxLength
  = String.substring 0 (Z.to_nat maxLength) str +:+ "...".
Proof.
  intros Hlong. unfold formatWithEllipsis.
  destruct (Z.gtb_spec (Z.of_nat (String.length str)) maxLength); [reflexivity | lia].
Qed.

Lemma formatWithEllipsis_long_length str maxLength :
  maxLength < Z.of_nat (String.length str) ->
  Z.of_nat (String.length (formatWithEllipsis str maxLength))
  = Z.max 0 maxLength + 3.
Proof.
  intros Hlong. rewrite (formatWithEllipsis_long _ _ Hlong).
  rewrite length_append, length_prefix. simpl String.length. lia.
Qed.

(** X16: the result is never longer than maxLength + 3 characters (3 when
    maxLength is negative): at most 30 for the patient name, cut at 27, and
    at most 18 for the other details, cut at 15. *)
Theorem formatWithEllipsis_length_bound str maxLength :
  Z.of_nat (String.length (formatWithEllipsis str maxLength))
  <= Z.max 0 maxLength + 3.
Proof.
  destruct (Z_lt_ge_dec maxLength (Z.of_nat (String.length str))) as [Hlong | Hshort].
  - rewrite (formatWithEllipsis_long_length _ _ Hlong). lia.
  - rewrite formatWithEllipsis_short by lia. lia.
Qed.

(** X17: a string of at most maxLength characters is returned as it is; a
    longer one keeps its first maxLength characters, and the result has
    maxLength + 3 characters, which is more than the string had when it was
    only one or two characters too long. *)
Theorem formatWithEllipsis_cases str maxLength :
  0 <= maxLength ->
  (Z.of_nat (String.length str) <= maxLength ->
   formatWithEllipsis str maxLength = str)
  /\ (maxLength < Z.of_nat (String.length str) ->
      String.substring 0 (Z.to_nat maxLength) (formatWithEllipsis str maxLength)
      = String.substring 0 (Z.to_nat maxLength) str
      /\ Z.of_nat (String.length (formatWithEllipsis str maxLength))
         = maxLength + 3
      /\ (Z.of_nat (String.length str) < maxLength + 3 ->
          (String.length str
           < String.length (formatWithEllipsis str maxLength))%nat)).
Proof.
  intros Hm. split; [apply formatWithEllipsis_short |].
  intros Hlong.
  pose proof (formatWithEllipsis_long_length _ _ Hlong) as Hlen.
  split; [| split; lia].
  rewrite (formatWithEllipsis_long _ _ Hlong).
  rewrite prefix_of_append by (rewrite length_prefix; lia).
  apply prefix_of_prefix.
Qed.

Lemma formatWithEllipsis_cases_witness :
  0 <= 3
  /\ Z.of_nat (String.length "Doe") <= 3
  /\ formatWithEllipsis "Doe" 3 = "Doe"
  /\ 3 < Z.of_nat (String.length "Does") < 3 + 3
  /\ formatWithEllipsis "Does" 3 = "Doe..."
  /\ (String.length "Does" < String.length (formatWithEllipsis "Does" 3))%nat.
Proof.
  assert (H0 : 0 <= 3) by lia.
  assert (Hshort : Z.of_nat (String.length "Doe") <= 3)
    by (vm_compute; discriminate).
  assert (Hlong : 3 < Z.of_nat (String.length "Does") < 3 + 3)
    by (split; reflexivity).
  split; [exact H0 |]. split; [exact Hshort |].
  split; [exact (proj1 (formatWithEllipsis_cases "Doe" 3 H0) Hshort) |].
  split; [exact Hlong |]. split; [reflexivity |].
  exact (proj2 (proj2 (proj2 (formatWithEllipsis_cases "Does" 3 H0) (proj1 Hlong)))
           (proj2 Hlong)).
Defined.

(** X18: shortening twice is shortening once. *)
Theorem formatWithEllipsis_idempotent str maxLength :
  formatWithEllipsis (formatWithEllipsis str maxLength) maxLength
  = formatWithEllipsis str maxLength.
Proof.
  destruct (Z_lt_ge_dec maxLength (Z.of_nat (String.length str))) as [Hlong | Hshort].
  - pose proof (formatWithEllipsis_long_length _ _ Hlong) as Hlen.
    rewrite (formatWithEllipsis_long (formatWithEllipsis str maxLength)) by lia.
    rewrite (formatWithEllipsis_long _ _ Hlong).
    rewrite prefix_of_append by (rewrite length_prefix; lia).
    rewrite prefix_of_prefix. reflexivity.
  - rewrite (formatWithEllipsis_short str) by lia.
    apply formatWithEllipsis_short. lia.
Qed.

End Ellipsis.
